(** * Music-Genre-Identifier: the genre decision list and the analysis pipeline

    A shallow embedding of [src/main.py]:
    - [predict_genre], the ordered threshold rules over four spectral
      features (lines 10-18);
    - [analyze_audio_file], the feature extraction built from librosa and
      numpy calls (lines 21-28);
    - [SpotifyStyleGUI.analyze_audio], the worker that runs both, renders
      the spectrogram and schedules the user-interface updates
      (lines 115-156).

    Feature values are IEEE-754 binary64 numbers ([spec_float] of the
    Standard Library, with NaN, signed zeros and infinities); the library
    calls are fields of a [Library] record, since their code is not part of
    the repository. *)

From Stdlib Require Import ZArith List Ascii String Bool Lia.
From Stdlib Require Import Floats.SpecFloat DecimalString.
Import ListNotations.
Open Scope Z_scope.

(** ** Python floats *)

Module F64.

Definition prec : Z := 53.
Definition emax : Z := 1024.

Definition float := spec_float.

(** An integer literal compared with a float is converted to the float of
    the same value; every literal of the program is below 2^53, so the
    conversion is exact. *)
Definition lit (z : Z) : spec_float := binary_normalize prec emax z 0 false.

(** The float denoted by the decimal literal [n / 10^k], correctly
    rounded: [dec 14999 1] is 1499.9. *)
Definition dec (n : Z) (k : Z) : float :=
  SFdiv prec emax (lit n) (lit (10 ^ k)).

(** Python's [x < y], [x <= y], [x > y], [x >= y] on floats: every
    comparison with NaN is False. *)
Definition lt (x y : float) : bool := SFltb x y.
Definition le (x y : float) : bool := SFleb x y.
Definition gt (x y : float) : bool := SFltb y x.
Definition ge (x y : float) : bool := SFleb y x.

End F64.

Declare Scope pyfloat_scope.
Delimit Scope pyfloat_scope with pyf.
Notation "x < y" := (F64.lt x y) : pyfloat_scope.
Notation "x <= y" := (F64.le x y) : pyfloat_scope.
Notation "x > y" := (F64.gt x y) : pyfloat_scope.
Notation "x >= y" := (F64.ge x y) : pyfloat_scope.
(** Python's chained comparison [a <= x < b] is [a <= x and x < b]. *)
Notation "a <= x < b" := (andb (F64.le a x) (F64.lt x b)) : pyfloat_scope.
(** An integer literal next to a float stands for [F64.lit] of it. *)
Coercion F64.lit : Z >-> spec_float.

(** ** Results of fallible code *)

Inductive result (E A : Type) : Type :=
| Ok (a : A)
| Err (e : E).
Arguments Ok {E A} a.
Arguments Err {E A} e.

Definition rmap {E A B} (f : A -> B) (r : result E A) : result E B :=
  match r with
  | Ok a => Ok (f a)
  | Err e => Err e
  end.

(** ** The genre decision list *)

Module Genre.

Import F64.

(** The [ValueError] of a tuple assignment whose right-hand side does not
    have exactly four items. *)
Inductive unpack_error : Type :=
| NotEnoughValues (got : nat)
| TooManyValues.

(** [c, r, b, ct = features] *)
Definition unpack4 {A} (features : list A)
  : result unpack_error (A * A * A * A) :=
  match features with
  | [c; r; b; ct] => Ok (c, r, b, ct)
  | _ :: _ :: _ :: _ :: _ :: _ => Err TooManyValues
  | short => Err (NotEnoughValues (List.length short))
  end.

(** [predict_genre], with the number of the [return] statement that is
    executed (1 for line 12, ..., 7 for line 18) next to the label it
    returns. *)
Definition predict_genre_at (features : list float)
  : result unpack_error (nat * string) :=
  match unpack4 features with
  | Err e => Err e
  | Ok (c, r, b, ct) =>
      Ok (if (c < 1500)%pyf && (r < 3000)%pyf
            then (1%nat, "Classical"%string)
          else if (1500 <= c < 2500)%pyf && (ct < 25)%pyf
            then (2%nat, "Jazz"%string)
          else if (2200 <= c < 4200)%pyf && (4000 <= r < 7000)%pyf
                    && (ct < 22)%pyf && (b > 1500)%pyf
            then (3%nat, "Phonk"%string)
          else if (c >= 3500)%pyf && (ct >= 25)%pyf && (r >= 5000)%pyf
            then (4%nat, "Hip-Hop / Rap"%string)
          else if (c >= 5200)%pyf || (r > 7000)%pyf
            then (5%nat, "Rock"%string)
          else if (2500 <= c < 3800)%pyf && (r < 6000)%pyf
            then (6%nat, "Pop"%string)
          else (7%nat, "Pop"%string))
  end.

Definition predict_genre (features : list float)
  : result unpack_error string :=
  rmap snd (predict_genre_at features).

End Genre.

(** ** The decision table of the specification *)

Module Table.

Import F64.

Record FeatureVector : Type := mkFV {
  centroid : float;
  rolloff : float;
  bandwidth : float;
  contrast : float
}.

Definition rule : Type := (FeatureVector -> bool) * string.

(** Rows 1 to 6 of the table, conditions and operators as the
    specification writes them, with (c, r, b, t) = (centroid, rolloff,
    bandwidth, contrast). *)
Definition rows : list rule :=
  [ (fun f => (centroid f < 1500)%pyf && (rolloff f < 3000)%pyf,
     "Classical"%string);
    (fun f => (1500 <= centroid f < 2500)%pyf && (contrast f < 25)%pyf,
     "Jazz"%string);
    (fun f => (2200 <= centroid f < 4200)%pyf
              && (4000 <= rolloff f < 7000)%pyf
              && (contrast f < 22)%pyf && (bandwidth f > 1500)%pyf,
     "Phonk"%string);
    (fun f => (centroid f >= 3500)%pyf && (contrast f >= 25)%pyf
              && (rolloff f >= 5000)%pyf,
     "Hip-Hop / Rap"%string);
    (fun f => (centroid f >= 5200)%pyf || (rolloff f > 7000)%pyf,
     "Rock"%string);
    (fun f => (2500 <= centroid f < 3800)%pyf && (rolloff f < 6000)%pyf,
     "Pop"%string) ].

(** Row 7: the label when none of the rows above matches. *)
Definition default_label : string := "Pop".

(** First match wins: the rows are tried in order from number [n]; the
    default row takes the number after the last one. *)
Fixpoint first_match (rs : list rule) (n : nat) (f : FeatureVector)
  : nat * string :=
  match rs with
  | [] => (n, default_label)
  | (cond, label) :: rest =>
      if cond f then (n, label) else first_match rest (S n) f
  end.

Definition classify_at (f : FeatureVector) : nat * string :=
  first_match rows 1 f.

Definition classify (f : FeatureVector) : string := snd (classify_at f).

(** The condition of row [n] (1 to 6) holds at [f]. *)
Definition holds (n : nat) (f : FeatureVector) : bool :=
  match nth_error rows (Nat.pred n) with
  | Some (cond, _) => match n with O => false | _ => cond f end
  | None => false
  end.

(** The closed set of genre labels. *)
Definition labels : list string :=
  [ "Classical"; "Jazz"; "Phonk"; "Hip-Hop / Rap"; "Rock"; "Pop" ]%string.

End Table.


(** ** The decision list with the sixth rule removed *)

Module Variant.

Import F64 Genre.

(** [predict_genre] without line 17: what rule 6 caught now reaches the
    final [return "Pop"]. *)
Definition predict_genre_without_rule6 (features : list float)
  : result unpack_error string :=
  match unpack4 features with
  | Err e => Err e
  | Ok (c, r, b, ct) =>
      Ok (if (c < 1500)%pyf && (r < 3000)%pyf then "Classical"
          else if (1500 <= c < 2500)%pyf && (ct < 25)%pyf then "Jazz"
          else if (2200 <= c < 4200)%pyf && (4000 <= r < 7000)%pyf
                    && (ct < 22)%pyf && (b > 1500)%pyf then "Phonk"
          else if (c >= 3500)%pyf && (ct >= 25)%pyf && (r >= 5000)%pyf
            then "Hip-Hop / Rap"
          else if (c >= 5200)%pyf || (r > 7000)%pyf then "Rock"
          else "Pop")%string
  end.

End Variant.

(** ** The analysis pipeline *)

Module Pipeline.

Import F64.

(** A raised Python exception: its class and the text [str(e)]. *)
Record exn : Type := mkExn {
  exn_class : string;
  exn_str : string
}.

(** A call into a library: it runs in the state of the world outside the
    program (the files, the internal state of the libraries), returns a
    value or raises, and leaves a world behind. *)
Definition ext (World A : Type) : Type := World -> result exn A * World.

(** The calls the program makes into librosa, numpy, matplotlib and PIL.
    Their code is not part of the repository; the program is modelled
    for every behaviour of theirs. *)
Record Library : Type := {
  World : Type;
  signal : Type;      (* one-dimensional array of samples *)
  spectrum : Type;    (* complex short-time transform *)
  matrix : Type;      (* real two-dimensional array *)
  figure : Type;      (* matplotlib figure and axes *)
  buffer : Type;      (* io.BytesIO *)
  image : Type;       (* ImageTk.PhotoImage *)
  (* librosa.load(path, sr=sr, duration=duration) *)
  librosa_load :
    string -> option Z -> float -> ext World (signal * Z);
  (* librosa.stft(y, n_fft=n_fft, hop_length=hop_length) *)
  librosa_stft : signal -> Z -> Z -> ext World spectrum;
  np_abs : spectrum -> ext World matrix;
  (* librosa.feature.spectral_centroid(y=y, sr=sr) and its siblings *)
  spectral_centroid : signal -> Z -> ext World matrix;
  spectral_rolloff : signal -> Z -> ext World matrix;
  spectral_bandwidth : signal -> Z -> ext World matrix;
  (* librosa.feature.spectral_contrast(S=D, sr=sr) *)
  spectral_contrast : matrix -> Z -> ext World matrix;
  np_mean : matrix -> ext World float;
  (* plt.subplots(figsize=(8, 3.5)) *)
  plt_subplots : ext World figure;
  (* librosa.amplitude_to_db(D, ref=np.max) *)
  amplitude_to_db : matrix -> ext World matrix;
  (* librosa.display.specshow(db, sr=sr, hop_length=hop_length,
     x_axis='time', y_axis='log', cmap='inferno', ax=ax), then the title
     and plt.tight_layout() *)
  specshow : figure -> matrix -> Z -> Z -> ext World unit;
  (* plt.savefig(buf, format='png', dpi=dpi, bbox_inches='tight') into a
     fresh buffer, buf.seek(0), plt.close(fig) *)
  savefig : figure -> Z -> ext World buffer;
  (* ImageTk.PhotoImage(Image.open(buf).resize((w, h))) *)
  open_resize : buffer -> Z * Z -> ext World image
}.

Section WithLibrary.

Context (L : Library).

(** One widget update made by a callback. [ErrorStatus] is
    [status_label.configure(text=f"Error: {e}", text_color="red")]: its
    text is not fixed when the callback is scheduled, it is made from the
    variable [e] of the [except] clause when the callback runs. *)
Inductive widget_op : Type :=
| ResultText (text color : string)
| StatusText (text color : string)
| FilenameText (text color : string)
| SpectrogramImage (img : image L)
| ButtonState (button state : string)
| ErrorStatus.

(** What the worker does that is visible outside it, in program order:
    a file handed to the decoder, a callback handed to the event loop
    with [root.after(0, ...)]. *)
Inductive event : Type :=
| Decode (path : string) (duration : float)
| After (callback : list widget_op).

Record state : Type := mkState {
  world : World L;
  log : list event
}.

(** Computations: state passing, with exceptions that keep the state
    reached when they were raised. *)
Definition M (A : Type) : Type := state -> result exn A * state.

Definition ret {A} (a : A) : M A := fun s => (Ok a, s).

Definition raise {A} (e : exn) : M A := fun s => (Err e, s).

Definition bind {A B} (m : M A) (k : A -> M B) : M B :=
  fun s =>
    match m s with
    | (Ok a, s') => k a s'
    | (Err e, s') => (Err e, s')
    end.

(** [try: m except Exception as e: h e] *)
Definition try_except {A} (m : M A) (h : exn -> M A) : M A :=
  fun s =>
    match m s with
    | (Ok a, s') => (Ok a, s')
    | (Err e, s') => h e s'
    end.

Definition call {A} (f : ext (World L) A) : M A :=
  fun s =>
    let (r, w) := f (world s) in
    (r, mkState w (log s)).

Definition emit (ev : event) : M unit :=
  fun s => (Ok tt, mkState (world s) (log s ++ [ev])).

(** [root.after(0, callback)] *)
Definition after (callback : list widget_op) : M unit :=
  emit (After callback).

End WithLibrary.

Arguments ret {L A} a.
Arguments raise {L A} e.
Arguments bind {L A B} m k.
Arguments try_except {L A} m h.
Arguments call {L A} f.
Arguments emit {L} ev.
Arguments after {L} callback.
Arguments Decode {L} path duration.
Arguments After {L} callback.
Arguments ResultText {L} text color.
Arguments StatusText {L} text color.
Arguments FilenameText {L} text color.
Arguments SpectrogramImage {L} img.
Arguments ButtonState {L} button state.
Arguments ErrorStatus {L}.
Arguments mkState {L} world log.
Arguments world {L} s.
Arguments log {L} s.

Declare Scope pipeline_scope.
Delimit Scope pipeline_scope with M.
Notation "x <- m ;; k" := (bind m (fun x => k))
  (at level 61, m at next level, right associativity) : pipeline_scope.
Notation "' p <- m ;; k" := (bind m (fun x => let 'p := x in k))
  (at level 61, p pattern, m at next level, right associativity)
  : pipeline_scope.
Notation "m ;; k" := (bind m (fun _ => k))
  (at level 61, right associativity) : pipeline_scope.

(** [s.split("/")[-1]]: what follows the last slash. *)
Fixpoint last_component (s acc : string) : string :=
  match s with
  | EmptyString => acc
  | String ch rest =>
      if Ascii.eqb ch "/"%char then last_component rest ""
      else last_component rest (acc ++ String ch "")
  end.

(** [str(n)] for a count. *)
Definition str_nat (n : nat) : string :=
  DecimalString.NilEmpty.string_of_uint (Nat.to_uint n).

(** The [ValueError] of a failed tuple assignment as an exception. *)
Definition unpack_exn (u : Genre.unpack_error) : exn :=
  match u with
  | Genre.NotEnoughValues got =>
      mkExn "ValueError"
            ("not enough values to unpack (expected 4, got "
               ++ str_nat got ++ ")")
  | Genre.TooManyValues =>
      mkExn "ValueError" "too many values to unpack (expected 4)"
  end.

Section Program.

Context (L : Library).

Local Open Scope pipeline_scope.

(** [analyze_audio_file(path, duration=10)] *)
Definition analyze_audio_file (path : string) (duration : float)
  : M L (Z * matrix L * list float) :=
  '(y, sr) <- (emit (Decode path duration) ;;
               call (librosa_load L path None duration)) ;;
  S <- call (librosa_stft L y 1024 256) ;;
  D <- call (np_abs L S) ;;
  cs <- call (spectral_centroid L y sr) ;;
  centroid <- call (np_mean L cs) ;;
  rs <- call (spectral_rolloff L y sr) ;;
  rolloff <- call (np_mean L rs) ;;
  bs <- call (spectral_bandwidth L y sr) ;;
  bandwidth <- call (np_mean L bs) ;;
  ts <- call (spectral_contrast L D sr) ;;
  contrast <- call (np_mean L ts) ;;
  ret (sr, D, [centroid; rolloff; bandwidth; contrast]).

Definition default_duration : float := lit 10.

(** The body of the [try] of [SpotifyStyleGUI.analyze_audio], with
    [self.audio_path] as argument ([start_thread] starts the worker
    only when a path is set). The callbacks of the body read [genre],
    [fname] and [imgtk], which stay bound: their texts are the ones of
    the moment they are scheduled. *)
Definition analyze_audio_body (audio_path : string) : M L unit :=
  let fname := last_component audio_path "" in
  '(sr, D, features) <- analyze_audio_file audio_path default_duration ;;
  genre <- match Genre.predict_genre features with
           | Ok g => ret g
           | Err u => raise (unpack_exn u)
           end ;;
  after [ResultText ("🎧 Predicted Genre: " ++ genre) "#1DB954"] ;;
  after [StatusText "Status: Analysis complete." "#1DB954"] ;;
  after [FilenameText ("Analyzed File: " ++ fname) "#B3B3B3"] ;;
  fig <- call (plt_subplots L) ;;
  db <- call (amplitude_to_db L D) ;;
  call (specshow L fig db sr 256) ;;
  buf <- call (savefig L fig 120) ;;
  imgtk <- call (open_resize L buf (820, 340)) ;;
  after [SpectrogramImage imgtk;
         ButtonState "upload_btn" "normal";
         ButtonState "analyze_btn" "normal"].

(** The [except Exception as e] clause. The first callback reads [e]
    only when it runs; nothing of [e] is put into what is scheduled. *)
Definition analyze_audio_handler (e : exn) : M L unit :=
  after [ErrorStatus] ;;
  after [ButtonState "upload_btn" "normal"] ;;
  after [ButtonState "analyze_btn" "normal"].

Definition analyze_audio (audio_path : string) : M L unit :=
  try_except (analyze_audio_body audio_path) analyze_audio_handler.

End Program.

End Pipeline.

(** ** Statements about the pipeline *)

Module Props.

Import F64 Pipeline.

(** The path [s] ends in [suffix], as a file name with that extension
    does. *)
Definition ends_with (suffix s : string) : bool :=
  let n := String.length s in
  let k := String.length suffix in
  (k <=? n)%nat && String.eqb (substring (n - k) k s) suffix.

(** The worker, started on [path] in world [w] with nothing logged yet,
    fails with an exception of class [UnsupportedFormatError] and has
    handed no file to the decoder. *)
Definition rejected_before_decode (L : Library) (w : World L)
           (path : string) : Prop :=
  let run := analyze_audio_body L path (mkState w []) in
  (exists e, fst run = Err e
             /\ exn_class e = "UnsupportedFormatError"%string)
  /\ (forall p d, ~ In (Decode p d) (log (snd run))).

Section Logs.

Context {L : Library}.

(** The computation only appends to the log. *)
Definition extends {A} (m : M L A) : Prop :=
  forall s, exists rest, log (snd (m s)) = log s ++ rest.

(** The first thing the computation logs is [ev]. *)
Definition starts_with {A} (ev : event L) (m : M L A) : Prop :=
  forall s, exists rest, log (snd (m s)) = log s ++ ev :: rest.

End Logs.

Section Determinism.

Context {W : Type} (R : W -> W -> Prop).

(** A library call whose outcome is the same in all worlds that [R]
    relates, and which leaves the world in the class it found it in. *)
Definition determined {A} (f : ext W A) : Prop :=
  (forall w1 w2, R w1 w2 -> fst (f w1) = fst (f w2))
  /\ (forall w, R w (snd (f w))).

End Determinism.

(** The calls of the feature extraction are deterministic up to [R]:
    [R] relates the worlds that hold the same audio files, whatever else
    differs between them. *)
Record deterministic (L : Library) (R : World L -> World L -> Prop)
  : Prop := {
  det_refl : forall w, R w w;
  det_sym : forall w1 w2, R w1 w2 -> R w2 w1;
  det_trans : forall w1 w2 w3, R w1 w2 -> R w2 w3 -> R w1 w3;
  det_load : forall path sr d, determined R (librosa_load L path sr d);
  det_stft : forall y n h, determined R (librosa_stft L y n h);
  det_abs : forall S, determined R (np_abs L S);
  det_centroid : forall y sr, determined R (spectral_centroid L y sr);
  det_rolloff : forall y sr, determined R (spectral_rolloff L y sr);
  det_bandwidth : forall y sr, determined R (spectral_bandwidth L y sr);
  det_contrast : forall D sr, determined R (spectral_contrast L D sr);
  det_mean : forall m, determined R (np_mean L m)
}.

Section Runs.

Context {L : Library} (R : World L -> World L -> Prop).

(** Runs from related worlds return the same result and end in
    related worlds. *)
Definition same_runs {A} (m : M L A) : Prop :=
  forall s1 s2, R (world s1) (world s2) ->
    fst (m s1) = fst (m s2)
    /\ R (world (snd (m s1))) (world (snd (m s2))).

(** A run ends in a world related to the one it started in. *)
Definition keeps_class {A} (m : M L A) : Prop :=
  forall s, R (world s) (world (snd (m s))).

End Runs.

End Props.

(** ** A small library to run the pipeline on *)

Module Toy.

Import F64 Pipeline.

(** Files hold integers; every call into the library is counted. *)
Record world : Type := mkWorld {
  files : list (string * list Z);
  calls : nat
}.

Fixpoint lookup (path : string) (fs : list (string * list Z))
  : option (list Z) :=
  match fs with
  | [] => None
  | (p, content) :: rest =>
      if String.eqb p path then Some content else lookup path rest
  end.

Definition tick {A} (r : world -> result exn A) : ext world A :=
  fun w => (r w, mkWorld (files w) (S (calls w))).

(** A file decodes when it starts with the magic number 82; the rest are
    its samples, at 22050 Hz. *)
Definition load (path : string) (sr : option Z) (duration : float)
  : ext world (list Z * Z) :=
  tick (fun w =>
    match lookup path (files w) with
    | None => Err (mkExn "FileNotFoundError" path)
    | Some [] => Err (mkExn "NoBackendError" "")
    | Some (magic :: samples) =>
        if magic =? 82 then Ok (samples, 22050)
        else Err (mkExn "NoBackendError" "")
    end).

Definition total (m : list Z) : Z := fold_right Z.add 0 m.

Definition mean (m : list Z) : float :=
  match m with
  | [] => S754_nan
  | _ => SFdiv prec emax (lit (total m)) (lit (Z.of_nat (List.length m)))
  end.

Definition library : Library := {|
  World := world;
  signal := list Z;
  spectrum := list Z;
  matrix := list Z;
  figure := unit;
  buffer := list Z;
  image := list Z;
  librosa_load := load;
  librosa_stft := fun y _ _ => tick (fun _ => Ok y);
  np_abs := fun S => tick (fun _ => Ok (map Z.abs S));
  spectral_centroid := fun y sr => tick (fun _ => Ok (map (Z.mul 100) y));
  spectral_rolloff := fun y sr => tick (fun _ => Ok (map (Z.mul 200) y));
  spectral_bandwidth := fun y sr => tick (fun _ => Ok (map (Z.mul 50) y));
  spectral_contrast := fun D sr => tick (fun _ => Ok D);
  np_mean := fun m => tick (fun _ => Ok (mean m));
  plt_subplots := tick (fun _ => Ok tt);
  amplitude_to_db := fun D => tick (fun _ => Ok D);
  specshow := fun _ _ _ _ => tick (fun _ => Ok tt);
  savefig := fun _ _ => tick (fun _ => Ok [137; 80; 78; 71]);
  open_resize := fun buf _ => tick (fun _ => Ok buf)
|}.

Definition disk : world :=
  mkWorld [ ("music/song.wav"%string, [82; 10; -30; 20; 40]);
            ("notes.txt"%string, [104; 101; 108; 108; 111]) ] 0.

(** The worker starts with nothing logged. *)
Definition start : state library := mkState (L := library) disk [].

Definition same_files (w1 w2 : world) : Prop := files w1 = files w2.

End Toy.

(** ** Slashes in a path *)

Module Paths.

(** The string has a slash in it. *)
Fixpoint has_slash (s : string) : bool :=
  match s with
  | EmptyString => false
  | String ch rest => Ascii.eqb ch "/"%char || has_slash rest
  end.

End Paths.

(** ** What the worker schedules *)

Module Traces.

Import Pipeline.




End Traces.

(** ** The window: loading a file, starting the worker, running callbacks *)

Module Gui.

Import F64 Pipeline.

(** A font as the program gives it: family, size and, when present, the
    weight. *)
Definition font : Type := (string * Z * option string)%type.

Section WithLibrary.

Context (L : Library).

(** The attributes of [SpotifyStyleGUI] and of its widgets that the
    program reads or configures after the window is built. *)
Record gui : Type := mkGui {
  audio_path : option string;
  status_text : string;
  status_color : string;
  status_font : font;
  result_text : string;
  result_color : string;
  filename_text : string;
  filename_color : string;
  spectrogram_image : option (image L);
  spectrogram_text : string;
  spectrogram_keep : option (image L);  (* spectrogram_label.image *)
  upload_btn : string;
  analyze_btn : string
}.

(** The window after [__init__]: no path, the texts of lines 72-91, both
    buttons in their default state. *)
Definition init : gui := {|
  audio_path := None;
  status_text := "Status: Waiting for audio...";
  status_color := "#CCCCCC";
  status_font := ("Trebuchet MS"%string, 14, None);
  result_text := "Predicted Genre: -";
  result_color := "#1DB954";
  filename_text := "File: -";
  filename_color := "#B3B3B3";
  spectrogram_image := None;
  spectrogram_text := "Spectrogram will appear here";
  spectrogram_keep := None;
  upload_btn := "normal";
  analyze_btn := "normal"
|}.

(** Python's truth value of a string. *)
Definition truthy (s : string) : bool :=
  match s with
  | EmptyString => false
  | String _ _ => true
  end.

(** [load_audio], with the answer of the file dialog as argument (the
    empty string when the dialog is cancelled). *)
Definition load_audio (path : string) (g : gui) : gui :=
  if truthy path then
    let fname := last_component path "" in
    {| audio_path := Some path;
       status_text := "Loaded: " ++ fname;
       status_color := "#1DB954";
       status_font := ("Trebuchet MS"%string, 15, Some "bold"%string);
       result_text := "Predicted Genre: -";
       result_color := "#1DB954";
       filename_text := "File: " ++ fname;
       filename_color := "#B3B3B3";
       spectrogram_image := None;
       spectrogram_text := "Spectrogram will appear here";
       spectrogram_keep := spectrogram_keep g;
       upload_btn := upload_btn g;
       analyze_btn := analyze_btn g |}
  else g.

Definition set_status (text color : string) (g : gui) : gui :=
  {| audio_path := audio_path g;
     status_text := text;
     status_color := color;
     status_font := status_font g;
     result_text := result_text g;
     result_color := result_color g;
     filename_text := filename_text g;
     filename_color := filename_color g;
     spectrogram_image := spectrogram_image g;
     spectrogram_text := spectrogram_text g;
     spectrogram_keep := spectrogram_keep g;
     upload_btn := upload_btn g;
     analyze_btn := analyze_btn g |}.

Definition set_buttons (upload analyze : string) (g : gui) : gui :=
  {| audio_path := audio_path g;
     status_text := status_text g;
     status_color := status_color g;
     status_font := status_font g;
     result_text := result_text g;
     result_color := result_color g;
     filename_text := filename_text g;
     filename_color := filename_color g;
     spectrogram_image := spectrogram_image g;
     spectrogram_text := spectrogram_text g;
     spectrogram_keep := spectrogram_keep g;
     upload_btn := upload;
     analyze_btn := analyze |}.

(** [start_thread]: the window it leaves, and the path the worker thread
    is started on, if one is started. *)
Definition start_thread (g : gui) : gui * option string :=
  match audio_path g with
  | None =>
      (set_status "⚠️ Please upload an audio file." "red" g, None)
  | Some path =>
      if truthy path then
        (set_status "Analyzing..." "#B3B3B3"
           (set_buttons "disabled" "disabled" g),
         Some path)
      else (set_status "⚠️ Please upload an audio file." "red" g, None)
  end.

(** One widget update of a callback, run by the event loop. [e] is what
    the variable [e] of the [except] clause is bound to at that moment:
    nothing once the clause has ended, since Python unbinds the variable
    there. The error callback then raises [NameError] before it touches
    the label; Tk reports the exception and goes on with the next
    callback. *)
Definition apply_op (e : option exn) (g : gui) (op : widget_op L) : gui :=
  match op with
  | ResultText text color =>
      {| audio_path := audio_path g;
         status_text := status_text g;
         status_color := status_color g;
         status_font := status_font g;
         result_text := text;
         result_color := color;
         filename_text := filename_text g;
         filename_color := filename_color g;
         spectrogram_image := spectrogram_image g;
         spectrogram_text := spectrogram_text g;
         spectrogram_keep := spectrogram_keep g;
         upload_btn := upload_btn g;
         analyze_btn := analyze_btn g |}
  | StatusText text color => set_status text color g
  | FilenameText text color =>
      {| audio_path := audio_path g;
         status_text := status_text g;
         status_color := status_color g;
         status_font := status_font g;
         result_text := result_text g;
         result_color := result_color g;
         filename_text := text;
         filename_color := color;
         spectrogram_image := spectrogram_image g;
         spectrogram_text := spectrogram_text g;
         spectrogram_keep := spectrogram_keep g;
         upload_btn := upload_btn g;
         analyze_btn := analyze_btn g |}
  | SpectrogramImage img =>
      {| audio_path := audio_path g;
         status_text := status_text g;
         status_color := status_color g;
         status_font := status_font g;
         result_text := result_text g;
         result_color := result_color g;
         filename_text := filename_text g;
         filename_color := filename_color g;
         spectrogram_image := Some img;
         spectrogram_text := "";
         spectrogram_keep := Some img;
         upload_btn := upload_btn g;
         analyze_btn := analyze_btn g |}
  | ButtonState button st =>
      if String.eqb button "upload_btn" then set_buttons st (analyze_btn g) g
      else if String.eqb button "analyze_btn"
           then set_buttons (upload_btn g) st g
           else g
  | ErrorStatus =>
      match e with
      | Some raised => set_status ("Error: " ++ exn_str raised) "red" g
      | None => g
      end
  end.

(** The event loop runs the callbacks in the order they were handed to
    it; a decode is no callback. *)
Definition run_event (e : option exn) (g : gui) (ev : event L) : gui :=
  match ev with
  | Decode _ _ => g
  | After callback => fold_left (apply_op e) callback g
  end.

Definition run_callbacks (e : option exn) (g : gui) (evs : list (event L))
  : gui :=
  fold_left (run_event e) evs g.

(** A click on [Analyze Audio] in world [w]: [start_thread], the worker
    run to its end, then the callbacks it scheduled; the worker has left
    the [except] clause by then, so [e] is unbound when they run. *)
Definition click_analyze (w : World L) (g : gui) : gui * World L :=
  match start_thread g with
  | (g1, None) => (g1, w)
  | (g1, Some path) =>
      let s := snd (analyze_audio L path (mkState w [])) in
      (run_callbacks None g1 (log s), world s)
  end.

End WithLibrary.

End Gui.

(** ** A library with constant answers *)

Module Plain.

Import F64 Pipeline.

(** Every file but a [.txt] one decodes to the same two samples; every
    statistic has mean zero; the decibel conversion raises when
    [db_raises] is set. The world counts the calls. *)
Definition count {A} (r : result exn A) : ext nat A :=
  fun calls => (r, S calls).

Definition library (db_raises : bool) : Library := {|
  World := nat;
  signal := list Z;
  spectrum := list Z;
  matrix := list Z;
  figure := unit;
  buffer := list Z;
  image := list Z;
  librosa_load := fun path _ _ =>
    count (if Props.ends_with ".txt" path
           then Err (mkExn "NoBackendError" "")
           else Ok ([0; 0], 22050));
  librosa_stft := fun y _ _ => count (Ok y);
  np_abs := fun S => count (Ok S);
  spectral_centroid := fun y _ => count (Ok y);
  spectral_rolloff := fun y _ => count (Ok y);
  spectral_bandwidth := fun y _ => count (Ok y);
  spectral_contrast := fun D _ => count (Ok D);
  np_mean := fun _ => count (Ok (S754_zero false));
  plt_subplots := count (Ok tt);
  amplitude_to_db := fun D =>
    count (if db_raises then Err (mkExn "FloatingPointError" "log")
           else Ok D);
  specshow := fun _ _ _ _ => count (Ok tt);
  savefig := fun _ _ => count (Ok [137; 80; 78; 71]);
  open_resize := fun buf _ => count (Ok buf)
|}.

Definition start (db_raises : bool) : state (library db_raises) :=
  mkState (L := library db_raises) 0%nat [].

End Plain.
(** ** Order facts on floats *)

Section FloatOrder.

Import F64.

Ltac sf_step :=
  match goal with
  | |- context [PosDef.Pos.compare_cont Eq ?a ?b] =>
      change (PosDef.Pos.compare_cont Eq a b) with (Pos.compare a b)
  | |- context [Z.compare ?a ?b] => destruct (Z.compare_spec a b); subst
  | |- context [Pos.compare ?a ?b] => destruct (Pos.compare_spec a b); subst
  end.

(** Case analysis on the floats of the goal, then on the comparisons of
    their exponents and mantissas. *)
Ltac sf_cases :=
  repeat match goal with
  | x : float |- _ => destruct x as [[|]|[|]| |[|] ? ?]
  end;
  cbn [SFltb SFleb SFcompare];
  try congruence; try reflexivity;
  repeat sf_step;
  cbn [CompOpp]; try congruence; try reflexivity; try lia.

Lemma le_lt_trans (x y z : float) :
  le x y = true -> lt y z = true -> lt x z = true.
Proof. unfold le, lt. sf_cases. Qed.

Lemma lt_le_trans (x y z : float) :
  lt x y = true -> le y z = true -> lt x z = true.
Proof. unfold le, lt. sf_cases. Qed.

Lemma le_trans (x y z : float) :
  le x y = true -> le y z = true -> le x z = true.
Proof. unfold le. sf_cases. Qed.

(** A float below [a] is not at or above [b] when [a <= b]. *)
Lemma lt_not_ge (x a b : float) :
  le a b = true -> lt x a = true -> le b x = false.
Proof.
  intros Hab Hx. destruct (le b x) eqn:Hb; [|reflexivity].
  pose proof (le_lt_trans _ _ _ (le_trans _ _ _ Hab Hb) Hx) as Hirr.
  revert Hirr. clear. unfold lt. sf_cases.
Qed.

Lemma ge_not_lt (x a b : float) :
  le a b = true -> le b x = true -> lt x a = false.
Proof.
  intros Hab Hb. destruct (lt x a) eqn:Hx; [|reflexivity].
  rewrite (lt_not_ge x a b Hab Hx) in Hb. discriminate.
Qed.

End FloatOrder.

(** ** The decision list against the table *)

Section DecisionList.

Import F64 Genre Table.

(** What [first_match] returns: the first row whose condition holds, with
    the label of that row, or the default after the last row. *)
Lemma first_match_spec (rs : list rule) (f : FeatureVector) :
  forall (k n : nat) (l : string),
    first_match rs k f = (n, l) ->
    (k <= n <= k + List.length rs)%nat
    /\ (forall i cond l', (i < n - k)%nat ->
          nth_error rs i = Some (cond, l') -> cond f = false)
    /\ ((exists cond, nth_error rs (n - k) = Some (cond, l)
                      /\ cond f = true)
        \/ (n = (k + List.length rs)%nat /\ l = default_label)).
Proof.
  induction rs as [|[cond0 l0] rest IH]; intros k n l Hfm; cbn in Hfm.
  - inversion Hfm; subst. cbn. split; [lia | split].
    + intros i cond l' Hi. lia.
    + right. split; [lia | reflexivity].
  - destruct (cond0 f) eqn:Hc.
    + inversion Hfm; subst. cbn [List.length]. split; [lia | split].
      * intros i cond l' Hi. lia.
      * left. exists cond0. replace (n - n)%nat with 0%nat by lia.
        split; [reflexivity | exact Hc].
    + destruct (IH (S k) n l Hfm) as (Hrange & Hbefore & Hat).
      cbn [List.length]. split; [lia | split].
      * intros i cond l' Hi Hnth. destruct i as [|i].
        -- cbn in Hnth. inversion Hnth; subst. exact Hc.
        -- cbn in Hnth. apply (Hbefore i cond l'); [lia | exact Hnth].
      * destruct Hat as [(cond & Hnth & Hcond) | (Hn & Hl)].
        -- left. exists cond. split; [|exact Hcond].
           replace (n - k)%nat with (S (n - S k)) by lia. exact Hnth.
        -- right. split; [lia | exact Hl].
Qed.

Lemma holds_nth (n : nat) (f : FeatureVector) (cond : FeatureVector -> bool)
      (l : string) :
  nth_error rows n = Some (cond, l) -> holds (S n) f = cond f.
Proof. unfold holds. cbn [Nat.pred]. intros ->. reflexivity. Qed.

Lemma holds_range (n : nat) (f : FeatureVector) :
  holds n f = true -> (1 <= n <= 6)%nat.
Proof.
  unfold holds. destruct n as [|n]; cbn [Nat.pred].
  - destruct (nth_error rows 0) as [[? ?]|]; discriminate.
  - destruct (nth_error rows n) as [[cond l]|] eqn:Hn; [|discriminate].
    intros _. assert (n < List.length rows)%nat as Hlt
      by (apply nth_error_Some; congruence).
    cbn in Hlt. lia.
Qed.

(** The if-chain of [predict_genre] and the table read first-match agree,
    row number included. *)
Lemma predict_genre_at_table (c r b t : float) :
  predict_genre_at [c; r; b; t] = Ok (classify_at (mkFV c r b t)).
Proof.
  unfold predict_genre_at, classify_at, rows.
  cbn [unpack4 first_match centroid rolloff bandwidth contrast].
  repeat match goal with
  | |- context [if ?x then _ else _] => destruct x
  end; reflexivity.
Qed.

Lemma classify_at_first (f : FeatureVector) (n : nat) (l : string) :
  classify_at f = (n, l) ->
  (forall m, (m < n)%nat -> holds m f = false)
  /\ ((holds n f = true
       /\ exists cond, nth_error rows (Nat.pred n) = Some (cond, l))
      \/ (n = 7%nat /\ l = "Pop"%string)).
Proof.
  intros Hc. destruct (first_match_spec rows f 1 n l Hc)
    as (Hrange & Hbefore & Hat).
  split.
  - intros m Hm. destruct m as [|m]; [reflexivity|].
    destruct (nth_error rows m) as [[cond l']|] eqn:Hnth.
    + rewrite (holds_nth m f cond l' Hnth).
      apply (Hbefore m cond l'); [lia | exact Hnth].
    + unfold holds. cbn [Nat.pred]. rewrite Hnth. reflexivity.
  - destruct Hat as [(cond & Hnth & Hcond) | (Hn & Hl)].
    + left. destruct n as [|n]; [lia|].
      replace (S n - 1)%nat with n in Hnth by lia.
      split; [rewrite (holds_nth n f cond l Hnth); exact Hcond|].
      exists cond. exact Hnth.
    + right. split; [exact Hn | exact Hl].
Qed.

End DecisionList.

(** ** Properties of the decision list *)

Section GenreClaims.

Import F64 Genre Table Variant.

(** C1: for every feature quadruple (c, r, b, t), [predict_genre] returns
    the label of the first row of the seven-row decision table whose
    condition holds, rows tried in order 1 to 7 with the operators of the
    table; the [return] statement executed has the number of that row.
    Rule 1 fires exactly when c < 1500 and r < 3000 and yields Classical;
    rule 7 yields Pop when no earlier row matches. *)
Theorem predict_genre_first_match (c r b t : float) :
  predict_genre [c; r; b; t] = Ok (classify (mkFV c r b t))
  /\ predict_genre_at [c; r; b; t] = Ok (classify_at (mkFV c r b t))
  /\ (forall n l, predict_genre_at [c; r; b; t] = Ok (n, l) ->
        (forall m, (m < n)%nat -> holds m (mkFV c r b t) = false)
        /\ ((holds n (mkFV c r b t) = true
             /\ exists cond, nth_error rows (Nat.pred n) = Some (cond, l))
            \/ (n = 7%nat /\ l = "Pop"%string)))
  /\ (predict_genre_at [c; r; b; t] = Ok (1%nat, "Classical"%string)
      <-> (c < 1500)%pyf = true /\ (r < 3000)%pyf = true)
  /\ ((forall m, holds m (mkFV c r b t) = false) ->
      predict_genre_at [c; r; b; t] = Ok (7%nat, "Pop"%string)).
Proof.
  pose proof (predict_genre_at_table c r b t) as Hat.
  split; [|split; [|split; [|split]]].
  - unfold predict_genre, classify. rewrite Hat. reflexivity.
  - exact Hat.
  - intros n l Hnl. rewrite Hat in Hnl. inversion Hnl as [Hc].
    apply classify_at_first. exact Hc.
  - unfold predict_genre_at. cbn [unpack4]. split.
    + destruct (c < 1500)%pyf, (r < 3000)%pyf; cbn [andb];
        try (split; reflexivity);
        repeat match goal with
        | |- context [if ?x then _ else _] => destruct x
        end; discriminate.
    + intros [-> ->]. reflexivity.
  - intros Hnone. rewrite Hat.
    destruct (classify_at (mkFV c r b t)) as [n l] eqn:Hc.
    destruct (classify_at_first _ n l Hc) as (_ & [(Hn & _) | (-> & ->)]).
    + rewrite Hnone in Hn. discriminate.
    + reflexivity.
Qed.

(** C2: on every feature quadruple (NaN, infinities and negative values
    included) [predict_genre] returns a label, the label is one of
    Classical, Jazz, Phonk, Hip-Hop / Rap, Rock, Pop and is not empty, no
    other result is returned, and the label is Pop when no row of the
    table matches. *)
Theorem predict_genre_total (c r b t : float) :
  exists l : string,
    predict_genre [c; r; b; t] = Ok l
    /\ In l labels
    /\ l <> ""%string
    /\ (forall l', predict_genre [c; r; b; t] = Ok l' -> l' = l)
    /\ ((forall m, holds m (mkFV c r b t) = false) -> l = "Pop"%string).
Proof.
  pose proof (predict_genre_at_table c r b t) as Hat.
  destruct (classify_at (mkFV c r b t)) as [n l] eqn:Hc.
  exists l. unfold predict_genre. rewrite Hat. cbn [rmap snd].
  split; [reflexivity|].
  destruct (classify_at_first _ n l Hc) as (_ & Hrow).
  assert (In l labels) as Hin.
  { destruct Hrow as [(Hn & cond & Hnth) | (_ & ->)].
    - apply holds_range in Hn.
      do 7 (destruct n as [|n]; [cbn in Hnth; try lia; inversion Hnth;
                                  cbn; tauto|]).
      lia.
    - cbn. tauto. }
  split; [exact Hin|]. split; [|split].
  - intros ->. cbn in Hin.
    repeat (destruct Hin as [Hin|Hin]; [discriminate|]). exact Hin.
  - intros l' Hl'. inversion Hl'. reflexivity.
  - intros Hnone. destruct Hrow as [(Hn & _) | (_ & ->)].
    + rewrite Hnone in Hn. discriminate.
    + reflexivity.
Qed.

(** The conditions of rule 1 and of rule 6 exclude each other: a centroid
    below 1500 is not at or above 2500. *)
Lemma rule1_excludes_rule6 (c r : float) :
  (c < 1500)%pyf && (r < 3000)%pyf = true ->
  (2500 <= c < 3800)%pyf && (r < 6000)%pyf = false.
Proof.
  intros H1. apply andb_true_iff in H1 as [Hc _].
  rewrite (lt_not_ge c (lit 1500) (lit 2500) eq_refl Hc). reflexivity.
Qed.

(** C4, as stated, fails: no feature vector satisfies the conditions of
    rule 1 and of rule 6 together. *)
Lemma rule1_rule6_overlap_refuted :
  ~ ((exists c r b t : float,
        (c < 1500)%pyf && (r < 3000)%pyf = true
        /\ (2500 <= c < 3800)%pyf && (r < 6000)%pyf = true)
     /\ (forall c r b t : float,
           (c < 1500)%pyf && (r < 3000)%pyf = true ->
           (2500 <= c < 3800)%pyf && (r < 6000)%pyf = true ->
           predict_genre [c; r; b; t] = Ok "Classical"%string)).
Proof.
  intros [(c & r & b & t & H1 & H6) _].
  rewrite (rule1_excludes_rule6 c r H1) in H6. discriminate.
Qed.

(** C4, amended: every feature vector that satisfies the condition of
    rule 1 (c < 1500 and r < 3000) is classified Classical by the first
    [return], and none of them satisfies the condition of rule 6
    (2500 <= c < 3800 and r < 6000). *)
Theorem rule1_wins (c r b t : float) :
  (c < 1500)%pyf && (r < 3000)%pyf = true ->
  predict_genre [c; r; b; t] = Ok "Classical"%string
  /\ predict_genre_at [c; r; b; t] = Ok (1%nat, "Classical"%string)
  /\ (2500 <= c < 3800)%pyf && (r < 6000)%pyf = false.
Proof.
  intros H1. split; [|split].
  - unfold predict_genre, predict_genre_at. cbn [unpack4]. rewrite H1.
    reflexivity.
  - unfold predict_genre_at. cbn [unpack4]. rewrite H1. reflexivity.
  - apply rule1_excludes_rule6. exact H1.
Qed.

Lemma rule1_wins_witness :
  ((1000 < 1500)%pyf && (2000 < 3000)%pyf = true)
  /\ predict_genre [lit 1000; lit 2000; lit 0; lit 0]
     = Ok "Classical"%string.
Proof.
  split; [reflexivity|].
  apply (rule1_wins (lit 1000) (lit 2000) (lit 0) (lit 0)).
  reflexivity.
Defined.

(** C5, as stated, fails: (3000, 100, 0, 0) satisfies the condition of
    rule 6, so it does not fall through to the seventh [return]. *)
Lemma pop_3000_not_by_default :
  ~ (predict_genre [lit 3000; lit 100; lit 0; lit 0]
     = Ok "Pop"%string
     /\ (forall n, (1 <= n <= 6)%nat ->
           holds n (mkFV (lit 3000) (lit 100) (lit 0) (lit 0)) = false)
     /\ predict_genre_at [lit 3000; lit 100; lit 0; lit 0]
        = Ok (7%nat, "Pop"%string)).
Proof.
  intros (_ & Hnone & _). specialize (Hnone 6%nat ltac:(lia)).
  vm_compute in Hnone. discriminate.
Qed.

(** C5, amended: [predict_genre] applied to (c=3000, r=100, b=0, t=0)
    returns Pop; the input matches none of rules 1 to 5 and matches
    rule 6 (2500 <= c < 3800 and r < 6000), whose [return] yields the
    label. *)
Theorem pop_3000_by_rule6 :
  predict_genre [lit 3000; lit 100; lit 0; lit 0]
  = Ok "Pop"%string
  /\ predict_genre_at [lit 3000; lit 100; lit 0; lit 0]
     = Ok (6%nat, "Pop"%string)
  /\ holds 6 (mkFV (lit 3000) (lit 100) (lit 0) (lit 0)) = true
  /\ (forall n, (n < 6)%nat ->
        holds n (mkFV (lit 3000) (lit 100) (lit 0) (lit 0)) = false).
Proof.
  split; [|split; [|split]]; [vm_compute; reflexivity ..|].
  intros n Hn. do 6 (destruct n as [|n]; [vm_compute; reflexivity|]). lia.
Qed.

(** C6: [predict_genre] applied to (1500, 2999, 0, 0) does not return
    Classical (it returns Jazz through rule 2, since rule 1 requires
    c < 1500 strictly), and applied to (1499.9, 2999, 0, 0) it returns
    Classical. *)
Theorem centroid_boundary_1500 :
  predict_genre [lit 1500; lit 2999; lit 0; lit 0]
  <> Ok "Classical"%string
  /\ predict_genre [lit 1500; lit 2999; lit 0; lit 0]
     = Ok "Jazz"%string
  /\ ((lit 1500) < 1500)%pyf = false
  /\ predict_genre [dec 14999 1; lit 2999; lit 0; lit 0]
     = Ok "Classical"%string.
Proof.
  split; [|split; [|split]]; [|vm_compute; reflexivity ..].
  vm_compute. discriminate.
Qed.

(** C9: rule 6 is redundant; [predict_genre] with line 17 removed returns
    the same result as [predict_genre] on every argument, because rule 6
    and the final [return] both yield Pop. *)
Theorem rule6_redundant (features : list float) :
  predict_genre_without_rule6 features = predict_genre features.
Proof.
  unfold predict_genre_without_rule6, predict_genre, predict_genre_at.
  destruct (unpack4 features) as [[[[c r] b] ct]|e]; cbn [rmap];
    [|reflexivity].
  repeat match goal with
  | |- context [if ?x then _ else _] => destruct x
  end; reflexivity.
Qed.

(** C10: rule 2 shadows part of rule 3; every feature quadruple that
    satisfies the Phonk condition (2200 <= c < 4200, 4000 <= r < 7000,
    t < 22, b > 1500) with c < 2500 is classified Jazz by the second
    [return], not Phonk. *)
Theorem rule2_shadows_rule3 (c r b t : float) :
  (2200 <= c < 4200)%pyf && (4000 <= r < 7000)%pyf
    && (t < 22)%pyf && (b > 1500)%pyf = true ->
  (c < 2500)%pyf = true ->
  predict_genre [c; r; b; t] = Ok "Jazz"%string
  /\ predict_genre_at [c; r; b; t] = Ok (2%nat, "Jazz"%string)
  /\ predict_genre [c; r; b; t] <> Ok "Phonk"%string.
Proof.
  intros H3 Hc.
  apply andb_true_iff in H3 as [H3 _].
  apply andb_true_iff in H3 as [H3 Ht].
  apply andb_true_iff in H3 as [H3 _].
  apply andb_true_iff in H3 as [Hlo _].
  assert ((c < 1500)%pyf = false) as H1
    by (apply (ge_not_lt c (lit 1500) (lit 2200) eq_refl); exact Hlo).
  assert ((1500 <= c)%pyf = true) as H2
    by (apply (le_trans (lit 1500) (lit 2200) c eq_refl); exact Hlo).
  assert ((t < 25)%pyf = true) as H25
    by (apply (lt_le_trans t (lit 22) (lit 25)); [exact Ht|reflexivity]).
  assert (predict_genre_at [c; r; b; t] = Ok (2%nat, "Jazz"%string)) as Hat.
  { unfold predict_genre_at. cbn [unpack4].
    rewrite H1, H2, Hc, H25. reflexivity. }
  unfold predict_genre. rewrite Hat. cbn [rmap snd].
  split; [reflexivity|]. split; [reflexivity|]. discriminate.
Qed.

Lemma rule2_shadows_rule3_witness :
  predict_genre [lit 2300; lit 5000; lit 2000; lit 10]
  = Ok "Jazz"%string.
Proof.
  apply (rule2_shadows_rule3 (lit 2300) (lit 5000) (lit 2000) (lit 10));
    reflexivity.
Defined.

End GenreClaims.

(** ** The monad of the pipeline *)

Section Combinators.

Import Pipeline Props.

Context {L : Library}.

Lemma extends_ret {A} (a : A) : extends (L := L) (ret a).
Proof. intros s. exists []. cbn. rewrite app_nil_r. reflexivity. Qed.

Lemma extends_raise {A} (e : exn) : extends (L := L) (A := A) (raise e).
Proof. intros s. exists []. cbn. rewrite app_nil_r. reflexivity. Qed.

Lemma extends_call {A} (f : ext (World L) A) : extends (call f).
Proof.
  intros s. exists []. unfold call. destruct (f (world s)) as [r w]. cbn.
  rewrite app_nil_r. reflexivity.
Qed.

Lemma extends_emit (ev : event L) : extends (emit ev).
Proof. intros s. exists [ev]. reflexivity. Qed.

Lemma extends_bind {A B} (m : M L A) (k : A -> M L B) :
  extends m -> (forall a, extends (k a)) -> extends (bind m k).
Proof.
  intros Hm Hk s. unfold bind. destruct (Hm s) as [r1 H1].
  destruct (m s) as [[a|e] s']; cbn in H1.
  - destruct (Hk a s') as [r2 H2]. exists (r1 ++ r2).
    rewrite H2, H1, app_assoc. reflexivity.
  - exists r1. exact H1.
Qed.

Lemma starts_emit {A} (ev : event L) (m : M L A) :
  extends m -> starts_with ev (bind (emit ev) (fun _ => m)).
Proof.
  intros Hm s. unfold bind, emit.
  destruct (Hm (mkState (world s) (log s ++ [ev]))) as [rest Hrest].
  exists rest. rewrite Hrest. cbn. rewrite <- app_assoc. reflexivity.
Qed.

Lemma starts_bind {A B} (ev : event L) (m : M L A) (k : A -> M L B) :
  starts_with ev m -> (forall a, extends (k a)) ->
  starts_with ev (bind m k).
Proof.
  intros Hm Hk s. unfold bind. destruct (Hm s) as [r1 H1].
  destruct (m s) as [[a|e] s']; cbn in H1.
  - destruct (Hk a s') as [r2 H2]. exists (r1 ++ r2).
    rewrite H2, H1, <- app_assoc. reflexivity.
  - exists r1. exact H1.
Qed.

Lemma starts_try {A} (ev : event L) (m : M L A) (h : exn -> M L A) :
  starts_with ev m -> (forall e, extends (h e)) ->
  starts_with ev (try_except m h).
Proof.
  intros Hm Hh s. unfold try_except. destruct (Hm s) as [r1 H1].
  destruct (m s) as [[a|e] s']; cbn in H1.
  - exists r1. exact H1.
  - destruct (Hh e s') as [r2 H2]. exists (r1 ++ r2).
    rewrite H2, H1, <- app_assoc. reflexivity.
Qed.

End Combinators.

(** Goes through a computation written with [bind]. *)
Ltac extends_steps :=
  repeat first
    [ apply extends_bind; [|intros]
    | apply extends_ret | apply extends_raise
    | apply extends_call | apply extends_emit
    | match goal with
      | x : (_ * _)%type |- _ => destruct x
      | |- Props.extends (match ?r with Ok _ => _ | Err _ => _ end) =>
          destruct r
      end ].

Section PipelineLogs.

Import Pipeline Props.

Context (L : Library).

Lemma analyze_audio_file_starts (path : string) (duration : F64.float) :
  starts_with (Decode path duration) (analyze_audio_file L path duration).
Proof.
  unfold analyze_audio_file.
  apply starts_bind; [apply starts_emit; apply extends_call|].
  intros. extends_steps.
Qed.

Lemma analyze_audio_handler_extends (e : exn) :
  extends (analyze_audio_handler L e).
Proof. unfold analyze_audio_handler. extends_steps. Qed.

(** Whatever the path, the first visible thing the worker does is to hand
    it to the decoder. *)
Lemma analyze_audio_body_starts (path : string) :
  starts_with (Decode path default_duration) (analyze_audio_body L path).
Proof.
  unfold analyze_audio_body.
  apply starts_bind; [apply analyze_audio_file_starts|].
  intros. extends_steps.
Qed.

Lemma analyze_audio_starts (path : string) :
  starts_with (Decode path default_duration) (analyze_audio L path).
Proof.
  unfold analyze_audio. apply starts_try.
  - apply analyze_audio_body_starts.
  - apply analyze_audio_handler_extends.
Qed.

End PipelineLogs.

(** ** Runs from related worlds *)

Section RelatedRuns.

Import Pipeline Props.

Context {L : Library} (R : World L -> World L -> Prop).
Hypothesis HL : deterministic L R.

Lemma same_runs_ret {A} (a : A) : same_runs R (ret a).
Proof. intros s1 s2 H. split; [reflexivity | exact H]. Qed.

Lemma same_runs_emit (ev : event L) : same_runs R (emit ev).
Proof. intros s1 s2 H. split; [reflexivity | exact H]. Qed.

Lemma same_runs_call {A} (f : ext (World L) A) :
  determined R f -> same_runs R (call f).
Proof.
  intros [Hres Hkeep] s1 s2 H. unfold call.
  pose proof (Hres _ _ H) as Hr.
  pose proof (Hkeep (world s1)) as H1.
  pose proof (Hkeep (world s2)) as H2.
  destruct (f (world s1)) as [r1 w1], (f (world s2)) as [r2 w2].
  cbn in *. split; [exact Hr|].
  apply (det_trans L R HL w1 (world s1) w2).
  - apply (det_sym L R HL). exact H1.
  - apply (det_trans L R HL _ (world s2)); assumption.
Qed.

Lemma same_runs_bind {A B} (m : M L A) (k : A -> M L B) :
  same_runs R m -> (forall a, same_runs R (k a)) ->
  same_runs R (bind m k).
Proof.
  intros Hm Hk s1 s2 H. unfold bind.
  destruct (Hm s1 s2 H) as [Hr Hw].
  destruct (m s1) as [[a1|e1] s1'], (m s2) as [[a2|e2] s2'];
    cbn in Hr, Hw; try discriminate.
  - inversion Hr; subst. apply Hk. exact Hw.
  - inversion Hr; subst. split; [reflexivity | exact Hw].
Qed.

Lemma keeps_class_ret {A} (a : A) : keeps_class R (ret a).
Proof. intros s. apply (det_refl L R HL). Qed.

Lemma keeps_class_emit (ev : event L) : keeps_class R (emit ev).
Proof. intros s. apply (det_refl L R HL). Qed.

Lemma keeps_class_call {A} (f : ext (World L) A) :
  determined R f -> keeps_class R (call f).
Proof.
  intros [_ Hkeep] s. unfold call. pose proof (Hkeep (world s)) as H.
  destruct (f (world s)) as [r w]. exact H.
Qed.

Lemma keeps_class_bind {A B} (m : M L A) (k : A -> M L B) :
  keeps_class R m -> (forall a, keeps_class R (k a)) ->
  keeps_class R (bind m k).
Proof.
  intros Hm Hk s. unfold bind. pose proof (Hm s) as H.
  destruct (m s) as [[a|e] s']; cbn in H; [|exact H].
  apply (det_trans L R HL _ (world s')); [exact H | apply Hk].
Qed.

Lemma analyze_audio_file_same_runs (path : string) (duration : F64.float) :
  same_runs R (analyze_audio_file L path duration).
Proof.
  unfold analyze_audio_file.
  repeat first
    [ apply same_runs_bind; [|intros]
    | apply same_runs_ret | apply same_runs_emit
    | apply same_runs_call
    | match goal with x : (_ * _)%type |- _ => destruct x end
    | apply (det_load L R HL) | apply (det_stft L R HL)
    | apply (det_abs L R HL) | apply (det_centroid L R HL)
    | apply (det_rolloff L R HL) | apply (det_bandwidth L R HL)
    | apply (det_contrast L R HL) | apply (det_mean L R HL) ].
Qed.

Lemma analyze_audio_file_keeps_class (path : string)
      (duration : F64.float) :
  keeps_class R (analyze_audio_file L path duration).
Proof.
  unfold analyze_audio_file.
  repeat first
    [ apply keeps_class_bind; [|intros]
    | apply keeps_class_ret | apply keeps_class_emit
    | apply keeps_class_call
    | match goal with x : (_ * _)%type |- _ => destruct x end
    | apply (det_load L R HL) | apply (det_stft L R HL)
    | apply (det_abs L R HL) | apply (det_centroid L R HL)
    | apply (det_rolloff L R HL) | apply (det_bandwidth L R HL)
    | apply (det_contrast L R HL) | apply (det_mean L R HL) ].
Qed.

End RelatedRuns.

Section ToyLibrary.

Import Pipeline Props Toy.

Lemma tick_determined {A} (r : world -> result exn A) :
  (forall w1 w2, files w1 = files w2 -> r w1 = r w2) ->
  determined same_files (tick r).
Proof.
  intros Hr. split.
  - intros w1 w2 H. cbn. apply Hr. exact H.
  - intros w. reflexivity.
Qed.

Lemma library_deterministic : deterministic library same_files.
Proof.
  constructor; try (intros; apply tick_determined; reflexivity).
  - intros w. reflexivity.
  - intros w1 w2 H. symmetry. exact H.
  - intros w1 w2 w3 H1 H2. unfold same_files in *. congruence.
  - intros path sr d. apply tick_determined. intros w1 w2 H.
    rewrite H. reflexivity.
Defined.

End ToyLibrary.

(** ** Properties of the pipeline *)

Section PipelineClaims.

Import F64 Pipeline Props.

(** C3, as stated, fails: whatever the libraries do, the worker started
    on [notes.txt] hands the file to the decoder, so it is not rejected
    before any decode attempt. *)
Lemma txt_reaches_decoder :
  ends_with ".txt" "notes.txt" = true
  /\ ~ (exists (L : Library) (w : World L),
          rejected_before_decode L w "notes.txt").
Proof.
  split; [reflexivity|].
  intros (L & w & _ & Hnone).
  destruct (analyze_audio_body_starts L "notes.txt" (mkState w []))
    as [rest Hlog].
  apply (Hnone "notes.txt"%string default_duration).
  rewrite Hlog. cbn. left. reflexivity.
Qed.

(** C3, amended: [analyze_audio] makes no check of the file extension.
    For every path, one in [.txt] included, the first thing it does is
    to hand the path to the decoder ([librosa.load] with [sr=None] and
    [duration=10]); when the decoder raises, that exception is the one
    that reaches the [except] clause, and nothing else has been
    attempted. *)
Theorem analyze_audio_decodes_first (L : Library) (path : string)
        (s : state L) :
  (exists rest,
      log (snd (analyze_audio L path s))
      = log s ++ Decode path default_duration :: rest)
  /\ (forall (e : exn) (w' : World L),
        librosa_load L path None default_duration (world s) = (Err e, w')
        -> analyze_audio_body L path s
           = (Err e,
              mkState w' (log s ++ [Decode path default_duration]))).
Proof.
  split; [apply analyze_audio_starts|].
  intros e w' Hload.
  unfold analyze_audio_body, analyze_audio_file, bind, emit, call.
  cbn [world log]. rewrite Hload. reflexivity.
Qed.

Lemma analyze_audio_decodes_first_witness :
  librosa_load Toy.library "notes.txt" None default_duration Toy.disk
  = (Err (mkExn "NoBackendError" ""),
     Toy.mkWorld (Toy.files Toy.disk) 1)
  /\ analyze_audio_body Toy.library "notes.txt" Toy.start
     = (Err (mkExn "NoBackendError" ""),
        mkState (L := Toy.library) (Toy.mkWorld (Toy.files Toy.disk) 1)
          [ Decode "notes.txt" default_duration ]).
Proof.
  split; [reflexivity|].
  apply (proj2 (analyze_audio_decodes_first
                  Toy.library "notes.txt" Toy.start)
               (mkExn "NoBackendError" "")
               (Toy.mkWorld (Toy.files Toy.disk) 1)).
  reflexivity.
Defined.

(** C8: the feature extraction is deterministic. When the library calls
    it is made of are (their outcome depends on the world only through
    what [R] keeps: the audio files), two calls of [analyze_audio_file]
    with the same path and the same duration return the same sample
    rate, matrix and feature values (or raise the same exception), from
    any two worlds holding the same files, and in particular when the
    call is repeated right after the first one. *)
Theorem analyze_audio_file_deterministic
        (L : Library) (R : World L -> World L -> Prop)
        (HL : deterministic L R)
        (path : string) (duration : float) :
  (forall s1 s2 : state L,
      R (world s1) (world s2) ->
      fst (analyze_audio_file L path duration s1)
      = fst (analyze_audio_file L path duration s2))
  /\ (forall s : state L,
        fst (analyze_audio_file L path duration
               (snd (analyze_audio_file L path duration s)))
        = fst (analyze_audio_file L path duration s)).
Proof.
  assert (forall s1 s2 : state L,
             R (world s1) (world s2) ->
             fst (analyze_audio_file L path duration s1)
             = fst (analyze_audio_file L path duration s2)) as Hsame.
  { intros s1 s2 H.
    apply (analyze_audio_file_same_runs R HL path duration s1 s2 H). }
  split; [exact Hsame|].
  intros s. apply Hsame. apply (det_sym L R HL).
  apply (analyze_audio_file_keeps_class R HL path duration s).
Qed.

Lemma analyze_audio_file_deterministic_witness :
  fst (analyze_audio_file Toy.library "music/song.wav" (lit 10)
         (snd (analyze_audio_file Toy.library "music/song.wav" (lit 10)
                 Toy.start)))
  = fst (analyze_audio_file Toy.library "music/song.wav" (lit 10)
           Toy.start).
Proof.
  apply (proj2 (analyze_audio_file_deterministic
                  Toy.library Toy.same_files library_deterministic
                  "music/song.wav" (lit 10))).
Defined.

End PipelineClaims.

(** ** More on the decision list *)

Section FloatFacts.

Import F64.

Ltac sf_compare :=
  match goal with
  | |- context [PosDef.Pos.compare_cont Eq ?a ?b] =>
      change (PosDef.Pos.compare_cont Eq a b) with (Pos.compare a b)
  | |- context [Z.compare ?a ?b] => destruct (Z.compare_spec a b); subst
  | |- context [Pos.compare ?a ?b] => destruct (Pos.compare_spec a b); subst
  end.

Ltac sf_order :=
  repeat match goal with
  | x : float |- _ => destruct x as [[|]|[|]| |[|] ? ?]
  end;
  cbn [SFltb SFleb SFcompare];
  try congruence; try reflexivity;
  repeat sf_compare;
  cbn [CompOpp]; try congruence; try reflexivity; try lia.

Lemma lt_nan_l (x : float) : lt S754_nan x = false.
Proof. reflexivity. Qed.

Lemma le_nan_r (x : float) : le x S754_nan = false.
Proof. destruct x; reflexivity. Qed.

Lemma lt_nan_r (x : float) : lt x S754_nan = false.
Proof. destruct x; reflexivity. Qed.

(** The right-hand side of a comparison that holds is a number. *)
Lemma le_number_r (a x : float) : le a x = true -> le x x = true.
Proof. unfold le. sf_order. Qed.

Lemma lt_number_r (a x : float) : lt a x = true -> le x x = true.
Proof. unfold le, lt. sf_order. Qed.

Lemma lt_number_l (x a : float) : lt x a = true -> le x x = true.
Proof. unfold le, lt. sf_order. Qed.

(** On numbers the order is total. *)
Lemma not_lt_ge (x b : float) :
  le x x = true -> le b b = true -> lt x b = false -> le b x = true.
Proof. unfold le, lt. sf_order. Qed.

Lemma lt_asym (x y : float) : lt x y = true -> lt y x = false.
Proof. unfold lt. sf_order. Qed.

Lemma lt_lt_trans (x y z : float) :
  lt x y = true -> lt y z = true -> lt x z = true.
Proof. unfold lt. sf_order. Qed.

(** A float above [a] is not below [b] when [b <= a]. *)
Lemma gt_not_lt (x a b : float) :
  le b a = true -> lt a x = true -> lt x b = false.
Proof.
  intros Hba Hx. destruct (lt x b) eqn:Hb; [|reflexivity].
  pose proof (lt_le_trans _ _ _ Hb Hba) as Hxa.
  rewrite (lt_asym _ _ Hxa) in Hx. discriminate.
Qed.

End FloatFacts.

Section GenreRegions.

Import F64 Genre Table.

(** Unfolds [predict_genre] on a quadruple. *)
Ltac chain :=
  unfold predict_genre, predict_genre_at; cbn [unpack4 rmap].

(** Takes the tests of the if-chain one after the other. *)
Ltac tests :=
  repeat match goal with
  | |- context [if ?x then _ else _] => destruct x eqn:?
  end; cbn [snd].

(** X1: [predict_genre] returns a label exactly on lists of four values;
    on a shorter list the assignment of line 11 raises the [ValueError]
    for not enough values (with the number it got), on a longer one the
    [ValueError] for too many. *)
Theorem predict_genre_arity (features : list float) :
  (List.length features = 4%nat ->
   exists l, predict_genre features = Ok l /\ In l labels)
  /\ ((List.length features < 4)%nat ->
      predict_genre features
      = Err (NotEnoughValues (List.length features)))
  /\ ((List.length features > 4)%nat ->
      predict_genre features = Err TooManyValues).
Proof.
  destruct features as [|c [|r [|b [|t [|x rest]]]]]; cbn [List.length];
    (split; [|split]); intros Hlen; try lia; try reflexivity.
  chain. tests;
    (eexists; split; [reflexivity | cbn; tauto]).
Qed.

Lemma predict_genre_arity_witness :
  predict_genre [lit 1000; lit 2000]
  = Err (NotEnoughValues 2).
Proof.
  apply (proj1 (proj2 (predict_genre_arity [lit 1000; lit 2000]))).
  cbn. lia.
Defined.

(** X2: when the centroid is NaN, [predict_genre] returns Rock if the
    rolloff is above 7000 and Pop otherwise, whatever the bandwidth and
    the contrast; in particular four NaN features give Pop. *)
Theorem predict_genre_nan_centroid (r b t : float) :
  predict_genre [S754_nan; r; b; t]
  = Ok (if (r > 7000)%pyf then "Rock" else "Pop")%string
  /\ predict_genre [S754_nan; S754_nan; S754_nan; S754_nan]
     = Ok "Pop"%string.
Proof.
  split; [|reflexivity].
  chain. unfold ge, gt. rewrite !lt_nan_l, !le_nan_r. cbn [andb orb].
  unfold lt. destruct (SFltb 7000 r); reflexivity.
Qed.

(** X3: Jazz is returned exactly when the condition of rule 2 holds
    (1500 <= c < 2500 and t < 25): no earlier rule takes any of it. *)
Theorem jazz_region (c r b t : float) :
  predict_genre [c; r; b; t] = Ok "Jazz"%string
  <-> (1500 <= c < 2500)%pyf && (t < 25)%pyf = true.
Proof.
  split.
  - chain. tests; intros Hl; try discriminate Hl; reflexivity.
  - intros H2. pose proof H2 as H2'.
    apply andb_true_iff in H2' as [Hc _].
    apply andb_true_iff in Hc as [Hlo _].
    chain.
    rewrite (ge_not_lt c (lit 1500) (lit 1500) eq_refl Hlo), H2.
    reflexivity.
Qed.

(** X4: Phonk is returned exactly when 2500 <= c < 4200,
    4000 <= r < 7000, t < 22 and b > 1500: of the centroid range
    2200 to 4200 of rule 3, the part below 2500 goes to Jazz. *)
Theorem phonk_region (c r b t : float) :
  predict_genre [c; r; b; t] = Ok "Phonk"%string
  <-> (2500 <= c < 4200)%pyf && (4000 <= r < 7000)%pyf
        && (t < 22)%pyf && (b > 1500)%pyf = true.
Proof.
  split.
  - chain.
    destruct ((c < 1500)%pyf && (r < 3000)%pyf); [discriminate|].
    destruct ((1500 <= c < 2500)%pyf && (t < 25)%pyf) eqn:H2;
      [discriminate|].
    destruct ((2200 <= c < 4200)%pyf && (4000 <= r < 7000)%pyf
              && (t < 22)%pyf && (b > 1500)%pyf) eqn:H3.
    + intros _.
      apply andb_true_iff in H3 as [H3 Hb].
      apply andb_true_iff in H3 as [H3 Ht].
      apply andb_true_iff in H3 as [Hc Hr].
      apply andb_true_iff in Hc as [Hlo Hhi].
      rewrite Hhi, Hr, Ht, Hb.
      rewrite (le_trans (lit 1500) (lit 2200) c eq_refl Hlo) in H2.
      rewrite (lt_le_trans t (lit 22) (lit 25) Ht eq_refl) in H2.
      cbn [andb] in H2. rewrite andb_true_r in H2.
      rewrite (not_lt_ge c (lit 2500) (le_number_r _ _ Hlo) eq_refl H2).
      reflexivity.
    + tests; intros Hl; discriminate Hl.
  - intros H.
    apply andb_true_iff in H as [H Hb].
    apply andb_true_iff in H as [H Ht].
    apply andb_true_iff in H as [Hc Hr].
    apply andb_true_iff in Hc as [Hlo Hhi].
    chain.
    rewrite (ge_not_lt c (lit 1500) (lit 2500) eq_refl Hlo).
    rewrite (ge_not_lt c (lit 2500) (lit 2500) eq_refl Hlo).
    rewrite (le_trans (lit 2200) (lit 2500) c eq_refl Hlo).
    rewrite Hhi, Hr, Ht, Hb. cbn [andb]. rewrite andb_false_r.
    reflexivity.
Qed.

(** X5: Hip-Hop / Rap is returned exactly when the condition of rule 4
    holds (c >= 3500, t >= 25 and r >= 5000): no earlier rule takes any
    of it. *)
Theorem hiphop_region (c r b t : float) :
  predict_genre [c; r; b; t] = Ok "Hip-Hop / Rap"%string
  <-> (c >= 3500)%pyf && (t >= 25)%pyf && (r >= 5000)%pyf = true.
Proof.
  split.
  - chain. tests; intros Hl; try discriminate Hl; reflexivity.
  - intros H4. pose proof H4 as H.
    apply andb_true_iff in H as [H _].
    apply andb_true_iff in H as [Hc Ht].
    unfold ge in Hc, Ht.
    chain.
    rewrite (ge_not_lt c (lit 1500) (lit 3500) eq_refl Hc).
    rewrite (ge_not_lt c (lit 2500) (lit 3500) eq_refl Hc).
    rewrite (ge_not_lt t (lit 22) (lit 25) eq_refl Ht).
    rewrite H4. cbn [andb]. rewrite !andb_false_r. reflexivity.
Qed.

(** X6: Rock is returned exactly when the condition of rule 5 holds
    (c >= 5200 or r > 7000) and neither the Jazz condition nor the
    Hip-Hop / Rap condition does; rules 1 and 3 never take any of it. *)
Theorem rock_region (c r b t : float) :
  predict_genre [c; r; b; t] = Ok "Rock"%string
  <-> (c >= 5200)%pyf || (r > 7000)%pyf = true
      /\ (1500 <= c < 2500)%pyf && (t < 25)%pyf = false
      /\ (c >= 3500)%pyf && (t >= 25)%pyf && (r >= 5000)%pyf = false.
Proof.
  split.
  - chain. tests; intros Hl; try discriminate Hl; repeat split.
  - intros (H5 & H2 & H4).
    assert ((c < 1500)%pyf && (r < 3000)%pyf = false) as H1.
    { apply orb_true_iff in H5 as [Hc | Hr]; unfold ge, gt in *.
      - rewrite (ge_not_lt c (lit 1500) (lit 5200) eq_refl Hc). reflexivity.
      - rewrite (gt_not_lt r (lit 7000) (lit 3000) eq_refl Hr).
        apply andb_false_r. }
    assert ((2200 <= c < 4200)%pyf && (4000 <= r < 7000)%pyf
            && (t < 22)%pyf && (b > 1500)%pyf = false) as H3.
    { apply orb_true_iff in H5 as [Hc | Hr]; unfold ge, gt in *.
      - rewrite (ge_not_lt c (lit 4200) (lit 5200) eq_refl Hc).
        rewrite andb_false_r. reflexivity.
      - rewrite (lt_asym _ _ Hr). rewrite !andb_false_r. reflexivity. }
    chain. rewrite H1, H2, H3, H4, H5. reflexivity.
Qed.

(** X7: the bandwidth only decides between Phonk and the rest; two
    inputs that differ in the bandwidth alone and are both not Phonk get
    the same label. *)
Theorem bandwidth_only_for_phonk (c r b b' t : float) :
  predict_genre [c; r; b; t] <> Ok "Phonk"%string ->
  predict_genre [c; r; b'; t] <> Ok "Phonk"%string ->
  predict_genre [c; r; b; t] = predict_genre [c; r; b'; t].
Proof.
  chain.
  destruct ((c < 1500)%pyf && (r < 3000)%pyf); [reflexivity|].
  destruct ((1500 <= c < 2500)%pyf && (t < 25)%pyf); [reflexivity|].
  destruct ((2200 <= c < 4200)%pyf && (4000 <= r < 7000)%pyf
            && (t < 22)%pyf); cbn [andb];
    destruct (b > 1500)%pyf, (b' > 1500)%pyf; cbn [snd];
    intros Hb Hb'; try reflexivity;
    try (exfalso; apply Hb; reflexivity);
    try (exfalso; apply Hb'; reflexivity).
Qed.

Lemma bandwidth_only_for_phonk_witness :
  predict_genre [lit 3000; lit 100; lit 0; lit 0]
  = predict_genre [lit 3000; lit 100; lit 9000; lit 0].
Proof.
  apply (bandwidth_only_for_phonk
           (lit 3000) (lit 100) (lit 0) (lit 9000) (lit 0));
    vm_compute; discriminate.
Defined.

(** X8: every [return] of [predict_genre] is reachable; for each of the
    seven there is an input on which it is the one executed, with its
    label. *)
Theorem every_return_reachable (n : nat) :
  (1 <= n <= 7)%nat ->
  exists c r b t : Z,
    predict_genre_at [lit c; lit r; lit b; lit t]
    = Ok (n, nth (Nat.pred n) labels "Pop"%string).
Proof.
  intros Hn.
  destruct n as [|[|[|[|[|[|[|[|n]]]]]]]]; try lia.
  - exists 1000, 2000, 0, 0. reflexivity.
  - exists 2000, 0, 0, 0. reflexivity.
  - exists 3000, 5000, 2000, 0. reflexivity.
  - exists 4000, 6000, 0, 30. reflexivity.
  - exists 6000, 100, 0, 0. reflexivity.
  - exists 3000, 100, 0, 0. reflexivity.
  - exists 3000, 6500, 0, 30. reflexivity.
Qed.

Lemma every_return_reachable_witness :
  exists c r b t : Z,
    predict_genre_at [lit c; lit r; lit b; lit t]
    = Ok (5%nat, "Rock"%string).
Proof. apply (every_return_reachable 5). lia. Defined.

End GenreRegions.

(** ** More on the pipeline *)

Section Stepping.

Import F64 Pipeline Props.

Context {L : Library}.

Lemma bind_assoc {A B C} (m : M L A) (k1 : A -> M L B) (k2 : B -> M L C)
      (s : state L) :
  bind (bind m k1) k2 s = bind m (fun a => bind (k1 a) k2) s.
Proof. unfold bind. destruct (m s) as [[a|e] s1]; reflexivity. Qed.

Lemma bind_call {A B} (f : ext (World L) A) (k : A -> M L B) (s : state L) :
  bind (call f) k s
  = match f (world s) with
    | (Ok a, w) => k a (mkState w (log s))
    | (Err e, w) => (Err e, mkState w (log s))
    end.
Proof. unfold bind, call. destruct (f (world s)) as [[a|e] w]; reflexivity. Qed.

Lemma bind_emit {B} (ev : event L) (k : unit -> M L B) (s : state L) :
  bind (emit ev) k s = k tt (mkState (world s) (log s ++ [ev])).
Proof. reflexivity. Qed.

Lemma bind_after {B} (cb : list (widget_op L)) (k : unit -> M L B)
      (s : state L) :
  bind (after cb) k s = k tt (mkState (world s) (log s ++ [After cb])).
Proof. reflexivity. Qed.

Lemma bind_ret {A B} (a : A) (k : A -> M L B) (s : state L) :
  bind (ret a) k s = k a s.
Proof. reflexivity. Qed.

Lemma bind_raise {A B} (e : exn) (k : A -> M L B) (s : state L) :
  bind (raise e) k s = (Err e, s).
Proof. reflexivity. Qed.

End Stepping.

(** Runs the computation of the goal one statement further; a library
    call leaves one goal for each of its two outcomes. *)
Ltac step :=
  first
    [ rewrite bind_assoc
    | rewrite bind_emit
    | rewrite bind_after
    | rewrite bind_ret
    | rewrite bind_raise
    | match goal with
      | |- context [Pipeline.bind (Pipeline.call ?f) ?k ?s] =>
          rewrite (bind_call f k s);
          let a := fresh "a" in
          let e := fresh "e" in
          let w := fresh "w" in
          destruct (f (Pipeline.world s)) as [[a|e] w] eqn:?
      end ];
  cbv beta iota; cbn [Pipeline.world Pipeline.log].

Section Traces.

Import F64 Pipeline Props Traces.

Context (L : Library).

Lemma predict_genre_label (c r b t : float) :
  exists l, Genre.predict_genre [c; r; b; t] = Ok l /\ In l Table.labels.
Proof.
  unfold Genre.predict_genre, Genre.predict_genre_at.
  cbn [Genre.unpack4 rmap].
  repeat match goal with
  | |- context [if ?x then _ else _] => destruct x
  end; (eexists; split; [reflexivity | cbn; tauto]).
Qed.

(** What [analyze_audio_file] does, seen from outside: it hands the file
    to the decoder once, schedules nothing, and when it returns the
    feature list is made of the four means. *)
Lemma analyze_audio_file_runs (path : string) (duration : float)
      (s : state L) :
  exists w',
    snd (analyze_audio_file L path duration s)
    = mkState w' (log s ++ [Decode path duration])
    /\ forall sr D features,
         fst (analyze_audio_file L path duration s) = Ok (sr, D, features)
         -> exists c r b t, features = [c; r; b; t].
Proof.
  unfold analyze_audio_file.
  do 3 step;
    [destruct a as [y sr0]; cbv beta iota
    | eexists; split; [reflexivity | intros ? ? ? H; discriminate H]].
  repeat (step;
    [| eexists; split; [reflexivity | intros ? ? ? H; discriminate H]]).
  eexists. split; [reflexivity|].
  intros sr D features H. inversion H. eauto.
Qed.


Lemma bind_run_err {A B} (m : M L A) (k : A -> M L B) (s s1 : state L)
      (e : exn) :
  m s = (Err e, s1) -> bind m k s = (Err e, s1).
Proof. unfold bind. intros ->. reflexivity. Qed.



(** X9: when [analyze_audio_file] returns, its third component is a list
    of exactly four values, and [predict_genre] applied to it returns one
    of the six labels: the [ValueError] of line 11 cannot happen in the
    pipeline. *)
Theorem analyze_audio_file_features (path : string) (duration : float)
        (s s' : state L) (sr : Z) (D : matrix L) (features : list float) :
  analyze_audio_file L path duration s = (Ok (sr, D, features), s') ->
  List.length features = 4%nat
  /\ exists l, Genre.predict_genre features = Ok l /\ In l Table.labels.
Proof.
  intros Hrun.
  destruct (analyze_audio_file_runs path duration s) as (w' & _ & Hfeat).
  rewrite Hrun in Hfeat.
  destruct (Hfeat sr D features eq_refl) as (c & r & b & t & ->).
  split; [reflexivity | apply predict_genre_label].
Qed.

Lemma extraction_log (path : string)
      (duration : float) (s : state L) :
  log (snd (analyze_audio_file L path duration s))
  = log s ++ [Decode path duration].
Proof.
  destruct (analyze_audio_file_runs path duration s) as (w' & -> & _).
  reflexivity.
Qed.




End Traces.

Section TraceWitnesses.

Import F64 Pipeline Props Traces.

Lemma analyze_audio_file_features_witness :
  match fst (analyze_audio_file (Plain.library false) "music/song.wav"
               (lit 10) (Plain.start false)) with
  | Ok (_, _, features) => List.length features = 4%nat
  | Err _ => False
  end.
Proof.
  destruct (analyze_audio_file (Plain.library false) "music/song.wav"
              (lit 10) (Plain.start false))
    as [[[[sr D] features]|e] s'] eqn:Hrun; cbn [fst].
  - apply (proj1 (analyze_audio_file_features
                    (Plain.library false) "music/song.wav" (lit 10)
                    (Plain.start false) s' sr D features Hrun)).
  - vm_compute in Hrun. discriminate Hrun.
Defined.


End TraceWitnesses.

(** ** More on the window *)

Section Window.

Import F64 Pipeline Props Traces Gui.

Context (L : Library).

(** X13: a click on [Analyze Audio] while no file is loaded starts no
    worker: no library call is made, the buttons and every label but the
    status stay as they are, and the status asks in red for a file. This
    is the case of the window as [__init__] leaves it. *)
Theorem click_without_file (w : World L) (g : gui L) :
  audio_path L g = None ->
  click_analyze L w g
  = (set_status L "⚠️ Please upload an audio file." "red" g, w)
  /\ click_analyze L w (init L)
     = (set_status L "⚠️ Please upload an audio file." "red" (init L), w).
Proof.
  intros Hnone. unfold click_analyze, start_thread. rewrite Hnone.
  split; reflexivity.
Qed.



(** X16: when the extraction raises, the window shows no prediction: the
    result text, the file-name text and the image are those from before
    the click. *)
Theorem failure_shows_no_genre (w : World L) (g : gui L) (path : string)
        (e : exn) :
  audio_path L g = Some path ->
  truthy path = true ->
  fst (analyze_audio_file L path default_duration (mkState w [])) = Err e ->
  result_text L (fst (click_analyze L w g)) = result_text L g
  /\ filename_text L (fst (click_analyze L w g)) = filename_text L g
  /\ spectrogram_image L (fst (click_analyze L w g))
     = spectrogram_image L g.
Proof.
  intros Hpath Htruthy Herr. unfold click_analyze, start_thread.
  rewrite Hpath, Htruthy.
  unfold analyze_audio, try_except, analyze_audio_body.
  destruct (analyze_audio_file L path default_duration (mkState w []))
    as [[x|e'] s1] eqn:Hrun; cbn [fst] in Herr; [discriminate Herr|].
  inversion Herr; subst e'.
  rewrite (bind_run_err _ _ _ _ _ _ Hrun).
  pose proof (extraction_log L path default_duration
                (mkState w [])) as Hlog.
  rewrite Hrun in Hlog. cbn [snd log app] in Hlog.
  unfold analyze_audio_handler. do 2 step.
  unfold after, emit. cbn [snd fst log world]. rewrite Hlog.
  unfold run_callbacks. cbn. repeat split.
Qed.


(** X17: choosing a file and clicking [Analyze Audio] starts the worker
    on that file with both buttons disabled, whatever the window showed
    before; choosing a file clears the previous prediction and image, and
    a cancelled dialog changes nothing. *)
Theorem load_then_start (g : gui L) (path : string) :
  truthy path = true ->
  snd (start_thread L (load_audio L path g)) = Some path
  /\ upload_btn L (fst (start_thread L (load_audio L path g)))
     = "disabled"%string
  /\ analyze_btn L (fst (start_thread L (load_audio L path g)))
     = "disabled"%string
  /\ result_text L (load_audio L path g) = "Predicted Genre: -"%string
  /\ spectrogram_image L (load_audio L path g) = None
  /\ load_audio L "" g = g.
Proof.
  intros Htruthy. unfold start_thread, load_audio. rewrite Htruthy.
  cbn [audio_path]. rewrite Htruthy. cbn. repeat split.
Qed.

End Window.

Section WindowWitnesses.

Import F64 Pipeline Props Traces Gui.

Lemma click_without_file_witness :
  click_analyze (Plain.library false) 0%nat (init (Plain.library false))
  = (set_status (Plain.library false)
       "⚠️ Please upload an audio file." "red" (init (Plain.library false)),
     0%nat).
Proof.
  apply (proj1 (click_without_file (Plain.library false) 0%nat
                  (init (Plain.library false)) eq_refl)).
Defined.



Lemma failure_shows_no_genre_witness :
  result_text _
    (fst (click_analyze (Plain.library false) 0%nat
            (load_audio (Plain.library false) "notes.txt"
               (init (Plain.library false)))))
  = "Predicted Genre: -"%string.
Proof.
  apply (proj1 (failure_shows_no_genre (Plain.library false) 0%nat
                  (load_audio (Plain.library false) "notes.txt"
                     (init (Plain.library false)))
                  "notes.txt" (mkExn "NoBackendError" "")
                  eq_refl eq_refl ltac:(vm_compute; reflexivity))).
Defined.


Lemma load_then_start_witness :
  snd (start_thread (Plain.library false)
         (load_audio (Plain.library false) "music/song.wav"
            (init (Plain.library false))))
  = Some "music/song.wav"%string.
Proof.
  apply (proj1 (load_then_start (Plain.library false)
                  (init (Plain.library false)) "music/song.wav" eq_refl)).
Defined.

End WindowWitnesses.

(** ** The file name of a path *)

Section FileNames.

Import Pipeline Paths.

Open Scope string_scope.

Lemma append_assoc (a b c : string) : (a ++ b) ++ c = a ++ (b ++ c).
Proof. induction a as [|ch a IH]; cbn; [reflexivity | rewrite IH; reflexivity]. Qed.

Lemma append_empty_r (a : string) : a ++ "" = a.
Proof. induction a as [|ch a IH]; cbn; [reflexivity | rewrite IH; reflexivity]. Qed.

Lemma has_slash_app (a b : string) :
  has_slash (a ++ b) = has_slash a || has_slash b.
Proof.
  induction a as [|ch a IH]; cbn; [reflexivity|].
  rewrite IH, orb_assoc. reflexivity.
Qed.

Lemma last_component_no_slash (s acc : string) :
  has_slash s = false -> last_component s acc = acc ++ s.
Proof.
  revert acc. induction s as [|ch s IH]; intros acc Hs; cbn in *.
  - rewrite append_empty_r. reflexivity.
  - apply orb_false_iff in Hs as [Hch Hs]. rewrite Hch.
    rewrite (IH _ Hs), append_assoc. reflexivity.
Qed.

Lemma last_component_after_slash (dir name acc : string) :
  last_component (dir ++ "/" ++ name) acc = last_component name "".
Proof.
  revert acc. induction dir as [|ch dir IH]; intros acc; cbn.
  - reflexivity.
  - destruct (Ascii.eqb ch "/"); apply IH.
Qed.

Lemma last_component_splits (s acc : string) :
  has_slash acc = false ->
  exists dir,
    acc ++ s = dir ++ last_component s acc
    /\ has_slash (last_component s acc) = false
    /\ (dir = "" \/ exists d, dir = d ++ "/").
Proof.
  revert acc. induction s as [|ch s IH]; intros acc Hacc; cbn.
  - exists "". rewrite append_empty_r. cbn. auto.
  - destruct (Ascii.eqb ch "/") eqn:Hch.
    + apply Ascii.eqb_eq in Hch. subst ch.
      destruct (IH "" eq_refl) as (dir & Heq & Hno & Hdir).
      cbn in Heq. exists (acc ++ "/" ++ dir). split; [|split].
      * rewrite !append_assoc. cbn. rewrite <- Heq. reflexivity.
      * exact Hno.
      * right. destruct Hdir as [-> | (d & ->)].
        -- exists acc. reflexivity.
        -- exists (acc ++ "/" ++ d). rewrite !append_assoc. reflexivity.
    + assert (has_slash (acc ++ String ch "") = false) as Hacc'.
      { rewrite has_slash_app, Hacc. cbn. rewrite Hch. reflexivity. }
      destruct (IH _ Hacc') as (dir & Heq & Hno & Hdir).
      exists dir. split; [|split]; try assumption.
      rewrite <- Heq, append_assoc. reflexivity.
Qed.

(** X18: the file name computed by [path.split("/")[-1]] has no slash in
    it and is the end of the path: the path is a directory part, empty or
    ending in a slash, followed by the file name. *)
Theorem file_name_is_last_part (path : string) :
  exists dir,
    path = dir ++ last_component path ""
    /\ has_slash (last_component path "") = false
    /\ (dir = "" \/ exists d, dir = d ++ "/").
Proof. apply (last_component_splits path "" eq_refl). Qed.

(** X19: joining and splitting go back and forth; for a name with no
    slash in it, the file name of [dir/name] is [name] whatever the
    directory, and the file name of the bare [name] is [name] itself. *)
Theorem file_name_of_join (dir name : string) :
  has_slash name = false ->
  last_component (dir ++ "/" ++ name) "" = name
  /\ last_component name "" = name.
Proof.
  intros Hname. rewrite last_component_after_slash.
  rewrite (last_component_no_slash name "" Hname). split; reflexivity.
Qed.

Lemma file_name_of_join_witness :
  last_component ("home/user/music" ++ "/" ++ "song.wav") "" = "song.wav".
Proof.
  apply (proj1 (file_name_of_join "home/user/music" "song.wav" eq_refl)).
Defined.

End FileNames.
